(** * bitrise [tools] package: tool acquisition and process-invocation facade

    A shallow embedding of [tools/tools.go].  The Go code is effectful
    (file system, network, child processes, ambient configuration), so every
    function is a state transformer over an explicit [World]:

    - the ambient configuration the code reads ([runtime.GOOS],
      [runtime.GOARCH], the logrus level, the bitrise tools directory);
    - an [Oracle] fixing the outcome of every call that leaves the package
      (the Go standard library and the [cmdex] / [errorutil] helpers of
      go-utils, whose sources are not among the files of the package);
    - a file table and the chronological trace of external calls made.

    Go strings are byte sequences and are modelled by [string]; a Go [error]
    is modelled by its message, which is all [%s] ever observes. *)

From Stdlib Require Import ZArith List String Ascii Lia Bool.
From stdpp Require Import base option gmap strings.
Import ListNotations.

Local Open Scope string_scope.
Local Open Scope list_scope.
Local Open Scope Z_scope.

Module tools.

(** ** Errors *)

(** A Go [error] value, observed through its [Error()] method. *)
Record error : Type := mkError { Error : string }.

(** [fmt.Errorf] once the verbs have been substituted. *)
Definition fmt_Errorf (msg : string) : error := mkError msg.

(** [os.ErrInvalid], returned by [Close] on a nil [os.File] pointer. *)
Definition os_ErrInvalid : error := mkError "invalid argument".

(** [sub] occurs somewhere inside [s]. *)
Definition embeds (s sub : string) : Prop :=
  exists pre post : string, s = pre +:+ sub +:+ post.

(** ** The world *)

Record File : Type := mkFile { f_content : string; f_mode : Z }.

(** What [http.Get] hands back when the transport succeeded. *)
Record Response : Type := mkResponse { resp_Body : string }.

Inductive StdinSrc : Type :=
| StdinNil
| StdinOs
| StdinReader (s : string).          (* strings.NewReader(s) *)

Inductive OutSink : Type :=
| SinkNil
| SinkOsStdout
| SinkOsStderr.

(** [exec.Cmd], restricted to the fields the package sets. *)
Record Cmd : Type := mkCmd {
  cmd_Path : string;
  cmd_Args : list string;            (* Args[0] is the command name *)
  cmd_Stdin : StdinSrc;
  cmd_Stdout : OutSink;
  cmd_Stderr : OutSink
}.

(** [exec.Command(name, arg...)] *)
Definition exec_Command (name : string) (arg : list string) : Cmd :=
  {| cmd_Path := name; cmd_Args := name :: arg;
     cmd_Stdin := StdinNil; cmd_Stdout := SinkNil; cmd_Stderr := SinkNil |}.

(** Calls that leave the package, in the order they are made. *)
Inductive Event : Type :=
| EvCreate (path : string)
| EvFileClose (file : option string)
| EvWarn (msg : string)
| EvHttpGet (url : string)
| EvBodyClose (url : string)
| EvCopy (path url : string)
| EvChmod (path : string) (mode : Z)
| EvRunCommand (name : string) (args : list string)
| EvRunCombined (name : string) (args : list string)
| EvRunWithWriters (name : string) (args : list string)
| EvRunInDirExitCode (dir name : string) (args : list string)
| EvRunTrimmedCombined (name : string) (args : list string)
| EvCmdRun (c : Cmd).

Record Ambient : Type := mkAmbient {
  runtime_GOOS : string;
  runtime_GOARCH : string;
  logLevel : string;                               (* log.GetLevel().String() *)
  bitriseToolsDirPath : string;                    (* configs.GetBitriseToolsDirPath() *)
  umask : Z;
  filepath_Join : string -> string -> string;
  IsExitStatusError : error -> bool                (* errorutil.IsExitStatusError *)
}.

(** Modelled from the spec: what the exit-code runner
    [cmdex.RunCommandInDirAndReturnExitCode] (go-utils, whose source is not
    among the files of the package) reports.  Either the supervised command
    ran and exited with [code], which is reported with no error, or the
    command could not be invoked, which is reported as an invocation-level
    error. *)
Inductive RunOutcome : Type :=
| Exited (code : Z)
| InvocationFailed (code : Z) (err : error).

Definition RunOutcome_report (o : RunOutcome) : Z * option error :=
  match o with
  | Exited code => (code, None)
  | InvocationFailed code err => (code, Some err)
  end.

(** Outcomes of the external calls.  [None] is Go's [nil] error. *)
Record Oracle : Type := mkOracle {
  os_Create_err : string -> option error;
  file_Close_err : string -> option error;
  http_Get_res : string -> Response + error;
  (* [None]: the whole body reaches the file; [Some (n, e)]: the copy stops
     with [e] after [n] bytes *)
  io_Copy_fault : string -> string -> option (nat * error);
  body_Close_err : string -> option error;
  os_Chmod_err : string -> Z -> option error;
  RunCommand_res : string -> list string -> option error;
  RunCombined_res : string -> list string -> string * option error;
  (* bytes written to the first writer, to the second writer, and the error *)
  RunWithWriters_res : string -> list string -> string * string * option error;
  RunInDirExitCode_res : string -> string -> list string -> RunOutcome;
  RunTrimmedCombined_res : string -> list string -> string * option error;
  Cmd_Run_res : Cmd -> option error
}.

Record World : Type := mkWorld {
  ambient : Ambient;
  oracle : Oracle;
  fs : gmap string File;
  trace : list Event
}.

Definition set_fs (w : World) (m : gmap string File) : World :=
  {| ambient := ambient w; oracle := oracle w; fs := m; trace := trace w |}.

Definition log_event (e : Event) (w : World) : World :=
  {| ambient := ambient w; oracle := oracle w; fs := fs w;
     trace := trace w ++ [e] |}.

(** ** State-passing monad *)

Definition IO (A : Type) : Type := World -> A * World.

Definition ret {A : Type} (a : A) : IO A := fun w => (a, w).

Definition bind {A B : Type} (m : IO A) (k : A -> IO B) : IO B :=
  fun w => let (a, w') := m w in k a w'.

Notation "'let*' x ':=' m 'in' k" := (bind m (fun x => k))
  (at level 10, x pattern, m at level 100, k at level 200).

(** Go's [defer]: [d] runs after [body], whose result is what is returned. *)
Definition defer {A : Type} (d : IO unit) (body : IO A) : IO A :=
  let* r := body in
  let* _ := d in
  ret r.

(** ** Ambient reads *)

Definition log_GetLevel_String : IO string := fun w => (logLevel (ambient w), w).

Definition configs_GetBitriseToolsDirPath : IO string :=
  fun w => (bitriseToolsDirPath (ambient w), w).

(** ** Platform identification *)

(** The [switch] of [UnameGOOS] on the value of [runtime.GOOS]. *)
Definition UnameGOOS_of (goos : string) : string * option error :=
  if String.eqb goos "darwin" then ("Darwin", None)
  else if String.eqb goos "linux" then ("Linux", None)
  else ("", Some (fmt_Errorf ("Unsupported platform (" +:+ goos +:+ ")"))).

Definition UnameGOOS : IO (string * option error) :=
  fun w => (UnameGOOS_of (runtime_GOOS (ambient w)), w).

Definition UnameGOARCH_of (goarch : string) : string * option error :=
  if String.eqb goarch "amd64" then ("x86_64", None)
  else ("", Some (fmt_Errorf ("Unsupported architecture (" +:+ goarch +:+ ")"))).

Definition UnameGOARCH : IO (string * option error) :=
  fun w => (UnameGOARCH_of (runtime_GOARCH (ambient w)), w).


(** ** Artifact fetcher: the primitives [DownloadFile] calls *)

(** The mode of a file after [os.Create]: an existing file keeps its mode, a
    new one gets 0666 less the umask. *)
Definition created_mode (w : World) (name : string) : Z :=
  match fs w !! name with
  | Some f => f_mode f
  | None => Z.ldiff 438 (umask (ambient w))
  end.

#[global] Arguments created_mode : simpl never.

(** [os.Create]: creates the file or truncates an existing one. *)
Definition os_Create (name : string) : IO (string + error) :=
  fun w =>
    let w1 := log_event (EvCreate name) w in
    match os_Create_err (oracle w) name with
    | Some e => (inr e, w1)
    | None => (inl name, set_fs w1 (<[name := mkFile "" (created_mode w name)]> (fs w)))
    end.

(** [Close] on an [os.File] pointer; a nil pointer yields [os.ErrInvalid]. *)
Definition File_Close (file : option string) : IO (option error) :=
  fun w =>
    let w1 := log_event (EvFileClose file) w in
    match file with
    | None => (Some os_ErrInvalid, w1)
    | Some name => (file_Close_err (oracle w) name, w1)
    end.

Definition log_Warnf (msg : string) : IO unit :=
  fun w => (tt, log_event (EvWarn msg) w).

Definition http_Get (url : string) : IO (Response + error) :=
  fun w => (http_Get_res (oracle w) url, log_event (EvHttpGet url) w).

Definition Body_Close (url : string) : IO (option error) :=
  fun w => (body_Close_err (oracle w) url, log_event (EvBodyClose url) w).

Definition append_content (data : string) (f : File) : File :=
  mkFile (f_content f +:+ data) (f_mode f).

(** [io.Copy(outFile, resp.Body)]: the bytes that reach the file are appended
    to it. *)
Definition io_Copy (dst url : string) (src : Response) : IO (option error) :=
  fun w =>
    let w1 := log_event (EvCopy dst url) w in
    match io_Copy_fault (oracle w) dst url with
    | None => (None, set_fs w1 (alter (append_content (resp_Body src)) dst (fs w)))
    | Some (n, e) =>
        (Some e,
         set_fs w1 (alter (append_content (substring 0 n (resp_Body src))) dst (fs w)))
    end.

Definition set_mode (mode : Z) (f : File) : File := mkFile (f_content f) mode.

Definition os_Chmod (name : string) (mode : Z) : IO (option error) :=
  fun w =>
    let w1 := log_event (EvChmod name mode) w in
    match os_Chmod_err (oracle w) name mode with
    | Some e => (Some e, w1)
    | None => (None, set_fs w1 (alter (set_mode mode) name (fs w)))
    end.

Definition path_Join (dir name : string) : IO string :=
  fun w => (filepath_Join (ambient w) dir name, w).

(** ** [DownloadFile] *)

(** The first deferred function: close the output file, warn on failure. *)
Definition close_outFile (targetDirPath : string) (outFile : option string) : IO unit :=
  let* cerr := File_Close outFile in
  match cerr with
  | Some _ => log_Warnf ("Failed to close (" +:+ targetDirPath +:+ ")")
  | None => ret tt
  end.

(** The second deferred function: close the response body, warn on failure. *)
Definition close_Body (downloadURL : string) : IO unit :=
  let* cerr := Body_Close downloadURL in
  match cerr with
  | Some _ => log_Warnf ("failed to close (" +:+ downloadURL +:+ ") body")
  | None => ret tt
  end.

Definition DownloadFile (downloadURL targetDirPath : string) : IO (option error) :=
  let* created := os_Create targetDirPath in
  let outFile := match created with inl f => Some f | inr _ => None end in
  defer (close_outFile targetDirPath outFile)
    (match created with
     | inr err =>
         ret (Some (fmt_Errorf ("failed to create (" +:+ targetDirPath
                                +:+ "), error: " +:+ Error err)))
     | inl f =>
         let* got := http_Get downloadURL in
         match got with
         | inr err =>
             ret (Some (fmt_Errorf ("failed to download from (" +:+ downloadURL
                                    +:+ "), error: " +:+ Error err)))
         | inl resp =>
             defer (close_Body downloadURL)
               (let* err := io_Copy f downloadURL resp in
                match err with
                | Some e =>
                    ret (Some (fmt_Errorf ("failed to download from (" +:+ downloadURL
                                           +:+ "), error: " +:+ Error e)))
                | None => ret None
                end)
         end
     end).

(** ** Tool installer *)

Definition InstallFromURL (toolBinName downloadURL : string) : IO (option error) :=
  if (String.length toolBinName <? 1)%nat then
    ret (Some (fmt_Errorf ("No Tool (bin) Name provided! URL was: " +:+ downloadURL)))
  else
    let* bitriseToolsDirPath := configs_GetBitriseToolsDirPath in
    let* destinationPth := path_Join bitriseToolsDirPath toolBinName in
    let* derr := DownloadFile downloadURL destinationPth in
    match derr with
    | Some err => ret (Some (fmt_Errorf ("Failed to download, error: " +:+ Error err)))
    | None =>
        let* cerr := os_Chmod destinationPth 493 in       (* 0755 *)
        match cerr with
        | Some err =>
            ret (Some (fmt_Errorf ("Failed to make file (" +:+ destinationPth
                                   +:+ ") executable, error: " +:+ Error err)))
        | None => ret None
        end
    end.

Definition InstallToolFromGitHub (toolname githubUser toolVersion : string)
  : IO (option error) :=
  let* goos := UnameGOOS in
  match goos with
  | (_, Some err) => ret (Some (fmt_Errorf ("Failed to determine OS: " +:+ Error err)))
  | (unameGOOS, None) =>
      let* goarch := UnameGOARCH in
      match goarch with
      | (_, Some err) =>
          ret (Some (fmt_Errorf ("Failed to determine ARCH: " +:+ Error err)))
      | (unameGOARCH, None) =>
          let downloadURL :=
            "https://github.com/" +:+ githubUser +:+ "/" +:+ toolname
            +:+ "/releases/download/" +:+ toolVersion +:+ "/" +:+ toolname
            +:+ "-" +:+ unameGOOS +:+ "-" +:+ unameGOARCH in
          InstallFromURL toolname downloadURL
      end
  end.

(** ** Process invocation: the go-utils and [os/exec] entry points *)

Definition cmdex_RunCommand (name : string) (args : list string) : IO (option error) :=
  fun w => (RunCommand_res (oracle w) name args, log_event (EvRunCommand name args) w).

Definition cmdex_RunCommandAndReturnCombinedStdoutAndStderr
    (name : string) (args : list string) : IO (string * option error) :=
  fun w => (RunCombined_res (oracle w) name args, log_event (EvRunCombined name args) w).

(** [bytes.Buffer]: its content; the zero value is empty and ready to use. *)
Definition Buffer : Type := string.
Definition bytes_Buffer_zero : Buffer := "".
Definition Buffer_Write (b : Buffer) (p : string) : Buffer := b +:+ p.
Definition Buffer_String (b : Buffer) : string := b.

(** [cmdex.RunCommandWithWriters(&out, &err, name, args...)]: the child's
    output is written to the two buffers passed by reference, whose new
    contents are returned with the error. *)
Definition cmdex_RunCommandWithWriters (outWriter errWriter : Buffer)
    (name : string) (args : list string) : IO (Buffer * Buffer * option error) :=
  fun w =>
    let '(o, e, err) := RunWithWriters_res (oracle w) name args in
    ((Buffer_Write outWriter o, Buffer_Write errWriter e, err),
     log_event (EvRunWithWriters name args) w).

Definition cmdex_RunCommandInDirAndReturnExitCode
    (dir name : string) (args : list string) : IO (Z * option error) :=
  fun w => (RunOutcome_report (RunInDirExitCode_res (oracle w) dir name args),
            log_event (EvRunInDirExitCode dir name args) w).

(** [cmdex.NewCommand(name, args...).RunAndReturnTrimmedCombinedOutput()] *)
Definition cmdex_NewCommand_RunAndReturnTrimmedCombinedOutput
    (name : string) (args : list string) : IO (string * option error) :=
  fun w => (RunTrimmedCombined_res (oracle w) name args,
            log_event (EvRunTrimmedCombined name args) w).

Definition errorutil_IsExitStatusError (err : error) : IO bool :=
  fun w => (IsExitStatusError (ambient w) err, w).

(** [Run] on an [exec.Cmd] *)
Definition Cmd_Run (c : Cmd) : IO (option error) :=
  fun w => (Cmd_Run_res (oracle w) c, log_event (EvCmdRun c) w).

Definition with_stdio (c : Cmd) (i : StdinSrc) (o e : OutSink) : Cmd :=
  {| cmd_Path := cmd_Path c; cmd_Args := cmd_Args c;
     cmd_Stdin := i; cmd_Stdout := o; cmd_Stderr := e |}.

(** ** Stepman *)

Definition StepmanSetup (collection : string) : IO (option error) :=
  let* logLevel := log_GetLevel_String in
  let args := ["--debug"; "--loglevel"; logLevel; "setup"; "--collection"; collection] in
  cmdex_RunCommand "stepman" args.

Definition StepmanActivate (collection stepID stepVersion dir ymlPth : string) : IO (option error) :=
  let* logLevel := log_GetLevel_String in
  let args := ["--debug"; "--loglevel"; logLevel; "activate"; "--collection"; collection;
               "--id"; stepID; "--version"; stepVersion; "--path"; dir; "--copyyml"; ymlPth] in
  cmdex_RunCommand "stepman" args.

Definition StepmanUpdate (collection : string) : IO (option error) :=
  let* logLevel := log_GetLevel_String in
  let args := ["--debug"; "--loglevel"; logLevel; "update"; "--collection"; collection] in
  cmdex_RunCommand "stepman" args.

Definition StepmanRawStepLibStepInfo (collection stepID stepVersion : string) : IO (string * option error) :=
  let* logLevel := log_GetLevel_String in
  let args := ["--debug"; "--loglevel"; logLevel; "step-info"; "--collection"; collection;
               "--id"; stepID; "--version"; stepVersion; "--format"; "raw"] in
  cmdex_RunCommandAndReturnCombinedStdoutAndStderr "stepman" args.

Definition StepmanRawLocalStepInfo (pth : string) : IO (string * option error) :=
  let* logLevel := log_GetLevel_String in
  let args := ["--debug"; "--loglevel"; logLevel; "step-info"; "--step-yml"; pth;
               "--format"; "raw"] in
  cmdex_RunCommandAndReturnCombinedStdoutAndStderr "stepman" args.

Definition StepmanJSONStepLibStepInfo (collection stepID stepVersion : string) : IO (string * option error) :=
  let* logLevel := log_GetLevel_String in
  let args := ["--debug"; "--loglevel"; logLevel; "step-info"; "--collection"; collection;
               "--id"; stepID; "--version"; stepVersion; "--format"; "json"] in
  let outBuffer := bytes_Buffer_zero in
  let errBuffer := bytes_Buffer_zero in
  let* ran := cmdex_RunCommandWithWriters outBuffer errBuffer "stepman" args in
  let '(outBuffer, errBuffer, rerr) := ran in
  match rerr with
  | Some err =>
      ret (Buffer_String outBuffer,
           Some (fmt_Errorf ("Error: " +:+ Error err +:+ ", details: "
                             +:+ Buffer_String errBuffer)))
  | None => ret (Buffer_String outBuffer, None)
  end.

Definition StepmanJSONLocalStepInfo (pth : string) : IO (string * option error) :=
  let* logLevel := log_GetLevel_String in
  let args := ["--debug"; "--loglevel"; logLevel; "step-info"; "--step-yml"; pth;
               "--format"; "json"] in
  let outBuffer := bytes_Buffer_zero in
  let errBuffer := bytes_Buffer_zero in
  let* ran := cmdex_RunCommandWithWriters outBuffer errBuffer "stepman" args in
  let '(outBuffer, errBuffer, rerr) := ran in
  match rerr with
  | Some err =>
      ret (Buffer_String outBuffer,
           Some (fmt_Errorf ("Error: " +:+ Error err +:+ ", details: "
                             +:+ Buffer_String errBuffer)))
  | None => ret (Buffer_String outBuffer, None)
  end.

Definition StepmanRawStepList (collection : string) : IO (string * option error) :=
  let* logLevel := log_GetLevel_String in
  let args := ["--debug"; "--loglevel"; logLevel; "step-list"; "--collection"; collection;
               "--format"; "raw"] in
  cmdex_RunCommandAndReturnCombinedStdoutAndStderr "stepman" args.

Definition StepmanJSONStepList (collection : string) : IO (string * option error) :=
  let* logLevel := log_GetLevel_String in
  let args := ["--debug"; "--loglevel"; logLevel; "step-list"; "--collection"; collection;
               "--format"; "json"] in
  let outBuffer := bytes_Buffer_zero in
  let errBuffer := bytes_Buffer_zero in
  let* ran := cmdex_RunCommandWithWriters outBuffer errBuffer "stepman" args in
  let '(outBuffer, errBuffer, rerr) := ran in
  match rerr with
  | Some err =>
      ret (Buffer_String outBuffer,
           Some (fmt_Errorf ("Error: " +:+ Error err +:+ ", details: "
                             +:+ Buffer_String errBuffer)))
  | None => ret (Buffer_String outBuffer, None)
  end.

(** *** Share *)

Definition StepmanShare : IO (option error) :=
  let* logLevel := log_GetLevel_String in
  let args := ["--loglevel"; logLevel; "share"; "--toolmode"] in
  cmdex_RunCommand "stepman" args.

Definition StepmanShareAudit : IO (option error) :=
  let* logLevel := log_GetLevel_String in
  let args := ["--loglevel"; logLevel; "share"; "audit"; "--toolmode"] in
  cmdex_RunCommand "stepman" args.

Definition StepmanShareCreate (tag git stepID : string) : IO (option error) :=
  let* logLevel := log_GetLevel_String in
  let args := ["--loglevel"; logLevel; "share"; "create"; "--tag"; tag; "--git"; git;
               "--stepid"; stepID; "--toolmode"] in
  cmdex_RunCommand "stepman" args.

Definition StepmanShareFinish : IO (option error) :=
  let* logLevel := log_GetLevel_String in
  let args := ["--loglevel"; logLevel; "share"; "finish"; "--toolmode"] in
  cmdex_RunCommand "stepman" args.

Definition StepmanShareStart (collection : string) : IO (option error) :=
  let* logLevel := log_GetLevel_String in
  let args := ["--loglevel"; logLevel; "share"; "start"; "--collection"; collection;
               "--toolmode"] in
  cmdex_RunCommand "stepman" args.

(** ** Envman *)

Definition EnvmanInit : IO (option error) :=
  let* logLevel := log_GetLevel_String in
  let args := ["--loglevel"; logLevel; "init"] in
  cmdex_RunCommand "envman" args.

Definition EnvmanInitAtPath (envstorePth : string) : IO (option error) :=
  let* logLevel := log_GetLevel_String in
  let args := ["--loglevel"; logLevel; "--path"; envstorePth; "init"; "--clear"] in
  cmdex_RunCommand "envman" args.

Definition EnvmanAdd (envstorePth key value : string) (expand skipIfEmpty : bool)
  : IO (option error) :=
  let* logLevel := log_GetLevel_String in
  let args := ["--loglevel"; logLevel; "--path"; envstorePth; "add"; "--key"; key;
               "--append"] in
  let args := if negb expand then args ++ ["--no-expand"] else args in
  let args := if skipIfEmpty then args ++ ["--skip-if-empty"] else args in
  let envman := exec_Command "envman" args in
  let envman := with_stdio envman (StdinReader value) SinkOsStdout SinkOsStderr in
  Cmd_Run envman.

Definition EnvmanClear (envstorePth : string) : IO (option error) :=
  let* logLevel := log_GetLevel_String in
  let args := ["--loglevel"; logLevel; "--path"; envstorePth; "clear"] in
  let* ran := cmdex_NewCommand_RunAndReturnTrimmedCombinedOutput "envman" args in
  let '(out, rerr) := ran in
  match rerr with
  | Some err =>
      let* isExit := errorutil_IsExitStatusError err in
      let errorMsg := if isExit && negb (String.eqb out "") then out else Error err in
      ret (Some (fmt_Errorf ("failed to clear envstore (" +:+ envstorePth
                             +:+ "), error: " +:+ errorMsg)))
  | None => ret None
  end.

Definition EnvmanRun (envstorePth workDirPth : string) (cmd : list string)
  : IO (Z * option error) :=
  let* logLevel := log_GetLevel_String in
  let args := ["--loglevel"; logLevel; "--path"; envstorePth; "run"] in
  let args := args ++ cmd in
  cmdex_RunCommandInDirAndReturnExitCode workDirPth "envman" args.

Definition EnvmanJSONPrint (envstorePth : string) : IO (string * option error) :=
  let* logLevel := log_GetLevel_String in
  let args := ["--loglevel"; logLevel; "--path"; envstorePth; "print"; "--format"; "json";
               "--expand"] in
  let outBuffer := bytes_Buffer_zero in
  let errBuffer := bytes_Buffer_zero in
  let* ran := cmdex_RunCommandWithWriters outBuffer errBuffer "envman" args in
  let '(outBuffer, errBuffer, rerr) := ran in
  match rerr with
  | Some err =>
      ret (Buffer_String outBuffer,
           Some (fmt_Errorf ("Error: " +:+ Error err +:+ ", details: "
                             +:+ Buffer_String errBuffer)))
  | None => ret (Buffer_String outBuffer, None)
  end.

(** ** Observing a call of the facade *)

(** The calls of the process-invocation facade, one per exported
    [Stepman*] / [Envman*] function. *)
Inductive FacadeCall : Type :=
| CallStepmanSetup (collection : string)
| CallStepmanActivate (collection stepID stepVersion dir ymlPth : string)
| CallStepmanUpdate (collection : string)
| CallStepmanRawStepLibStepInfo (collection stepID stepVersion : string)
| CallStepmanRawLocalStepInfo (pth : string)
| CallStepmanJSONStepLibStepInfo (collection stepID stepVersion : string)
| CallStepmanJSONLocalStepInfo (pth : string)
| CallStepmanRawStepList (collection : string)
| CallStepmanJSONStepList (collection : string)
| CallStepmanShare
| CallStepmanShareAudit
| CallStepmanShareCreate (tag git stepID : string)
| CallStepmanShareFinish
| CallStepmanShareStart (collection : string)
| CallEnvmanInit
| CallEnvmanInitAtPath (envstorePth : string)
| CallEnvmanAdd (envstorePth key value : string) (expand skipIfEmpty : bool)
| CallEnvmanClear (envstorePth : string)
| CallEnvmanRun (envstorePth workDirPth : string) (cmd : list string)
| CallEnvmanJSONPrint (envstorePth : string).

(** The world a call leaves behind. *)
Definition world_after (c : FacadeCall) (w : World) : World :=
  match c with
  | CallStepmanSetup col => snd (StepmanSetup col w)
  | CallStepmanActivate col id ver dir yml => snd (StepmanActivate col id ver dir yml w)
  | CallStepmanUpdate col => snd (StepmanUpdate col w)
  | CallStepmanRawStepLibStepInfo col id ver => snd (StepmanRawStepLibStepInfo col id ver w)
  | CallStepmanRawLocalStepInfo pth => snd (StepmanRawLocalStepInfo pth w)
  | CallStepmanJSONStepLibStepInfo col id ver => snd (StepmanJSONStepLibStepInfo col id ver w)
  | CallStepmanJSONLocalStepInfo pth => snd (StepmanJSONLocalStepInfo pth w)
  | CallStepmanRawStepList col => snd (StepmanRawStepList col w)
  | CallStepmanJSONStepList col => snd (StepmanJSONStepList col w)
  | CallStepmanShare => snd (StepmanShare w)
  | CallStepmanShareAudit => snd (StepmanShareAudit w)
  | CallStepmanShareCreate tag git id => snd (StepmanShareCreate tag git id w)
  | CallStepmanShareFinish => snd (StepmanShareFinish w)
  | CallStepmanShareStart col => snd (StepmanShareStart col w)
  | CallEnvmanInit => snd (EnvmanInit w)
  | CallEnvmanInitAtPath pth => snd (EnvmanInitAtPath pth w)
  | CallEnvmanAdd pth key value expand skip => snd (EnvmanAdd pth key value expand skip w)
  | CallEnvmanClear pth => snd (EnvmanClear pth w)
  | CallEnvmanRun pth dir cmd => snd (EnvmanRun pth dir cmd w)
  | CallEnvmanJSONPrint pth => snd (EnvmanJSONPrint pth w)
  end.

(** The nine Stepman calls outside the share family pass [--debug]. *)
Definition passes_debug (c : FacadeCall) : bool :=
  match c with
  | CallStepmanSetup _ | CallStepmanActivate _ _ _ _ _ | CallStepmanUpdate _
  | CallStepmanRawStepLibStepInfo _ _ _ | CallStepmanRawLocalStepInfo _
  | CallStepmanJSONStepLibStepInfo _ _ _ | CallStepmanJSONLocalStepInfo _
  | CallStepmanRawStepList _ | CallStepmanJSONStepList _ => true
  | _ => false
  end.

(** The argument list handed to a child process ([Args[1:]] for a raw
    [exec.Cmd]). *)
Definition event_args (e : Event) : option (list string) :=
  match e with
  | EvRunCommand _ args | EvRunCombined _ args | EvRunWithWriters _ args
  | EvRunInDirExitCode _ _ args | EvRunTrimmedCombined _ args => Some args
  | EvCmdRun c => Some (tail (cmd_Args c))
  | _ => None
  end.

(** The events added to the trace between [w] and [w']. *)
Definition events_since (w w' : World) : list Event :=
  drop (length (trace w)) (trace w').

(** The argument lists of the child processes a call starts. *)
Definition assembled_args (c : FacadeCall) (w : World) : list (list string) :=
  omap event_args (events_since w (world_after c w)).

(** The log-verbosity flag pair. *)
Definition verbosity_pair (w : World) : list string :=
  ["--loglevel"; logLevel (ambient w)].

(** Claim C1 as worded: the assembled list starts with the pair. *)
Definition begins_with_verbosity_pair (c : FacadeCall) (w : World) : Prop :=
  exists args, assembled_args c w = [args] /\ verbosity_pair w `prefix_of` args.

(** The split-capture calls. *)
Inductive SplitCapture : Type :=
| SplitStepLibStepInfo (collection stepID stepVersion : string)
| SplitLocalStepInfo (pth : string)
| SplitStepList (collection : string)
| SplitEnvmanPrint (envstorePth : string).

Definition run_split (c : SplitCapture) : IO (string * option error) :=
  match c with
  | SplitStepLibStepInfo col id ver => StepmanJSONStepLibStepInfo col id ver
  | SplitLocalStepInfo pth => StepmanJSONLocalStepInfo pth
  | SplitStepList col => StepmanJSONStepList col
  | SplitEnvmanPrint pth => EnvmanJSONPrint pth
  end.

(** Owner rwx, group r-x, other r-x. *)
Definition is_rwxr_xr_x (mode : Z) : bool :=
  Z.testbit mode 8 && Z.testbit mode 7 && Z.testbit mode 6
  && Z.testbit mode 5 && negb (Z.testbit mode 4) && Z.testbit mode 3
  && Z.testbit mode 2 && negb (Z.testbit mode 1) && Z.testbit mode 0.

(** The bytes [DownloadFile] leaves in a destination it managed to create:
    nothing when the GET fails, otherwise what the copy wrote. *)
Definition downloaded_bytes (downloadURL targetDirPath : string) (w : World) : string :=
  match http_Get_res (oracle w) downloadURL with
  | inr _ => ""
  | inl resp =>
      match io_Copy_fault (oracle w) targetDirPath downloadURL with
      | None => resp_Body resp
      | Some (n, _) => substring 0 n (resp_Body resp)
      end
  end.

(** ** Sample worlds *)

Definition sample_ambient (goos goarch : string) : Ambient :=
  {| runtime_GOOS := goos; runtime_GOARCH := goarch;
     logLevel := "info";
     bitriseToolsDirPath := "/root/.bitrise/tools";
     umask := 18;
     filepath_Join := fun dir name => dir +:+ "/" +:+ name;
     IsExitStatusError := fun e => String.prefix "exit status " (Error e) |}.

(** Every external call succeeds; the download serves six bytes; child
    processes write ["{}"] to stdout and ["warn"] to stderr. *)
Definition calm_oracle : Oracle :=
  {| os_Create_err := fun _ => None;
     file_Close_err := fun _ => None;
     http_Get_res := fun _ => inl (mkResponse "binary");
     io_Copy_fault := fun _ _ => None;
     body_Close_err := fun _ => None;
     os_Chmod_err := fun _ _ => None;
     RunCommand_res := fun _ _ => None;
     RunCombined_res := fun _ _ => ("{}warn", None);
     RunWithWriters_res := fun _ _ => ("{}", "warn", None);
     RunInDirExitCode_res := fun _ _ _ => Exited 3;
     RunTrimmedCombined_res := fun _ _ => ("", None);
     Cmd_Run_res := fun _ => None |}.

(** The file system refuses to create files and children fail. *)
Definition hostile_oracle : Oracle :=
  {| os_Create_err := fun _ => Some (mkError "permission denied");
     file_Close_err := fun _ => None;
     http_Get_res := fun _ => inr (mkError "no such host");
     io_Copy_fault := fun _ _ => Some (2%nat, mkError "unexpected EOF");
     body_Close_err := fun _ => None;
     os_Chmod_err := fun _ _ => Some (mkError "operation not permitted");
     RunCommand_res := fun _ _ => Some (mkError "exit status 1");
     RunCombined_res := fun _ _ => ("boom", Some (mkError "exit status 1"));
     RunWithWriters_res := fun _ _ => ("partial", "boom", Some (mkError "exit status 1"));
     RunInDirExitCode_res :=
       fun _ _ _ => InvocationFailed 1 (mkError "executable file not found in $PATH");
     RunTrimmedCombined_res := fun _ _ => ("boom", Some (mkError "exit status 1"));
     Cmd_Run_res := fun _ => Some (mkError "exit status 1") |}.

Definition world_of (a : Ambient) (o : Oracle) : World :=
  {| ambient := a; oracle := o; fs := ∅; trace := [] |}.

Definition linux_world : World := world_of (sample_ambient "linux" "amd64") calm_oracle.
Definition plan9_world : World := world_of (sample_ambient "plan9" "arm64") calm_oracle.
Definition hostile_world : World := world_of (sample_ambient "linux" "amd64") hostile_oracle.

(** Downloads work but [chmod] is refused. *)
Definition nochmod_world : World :=
  world_of (sample_ambient "linux" "amd64")
    {| os_Create_err := os_Create_err calm_oracle;
       file_Close_err := file_Close_err calm_oracle;
       http_Get_res := http_Get_res calm_oracle;
       io_Copy_fault := io_Copy_fault calm_oracle;
       body_Close_err := body_Close_err calm_oracle;
       os_Chmod_err := os_Chmod_err hostile_oracle;
       RunCommand_res := RunCommand_res calm_oracle;
       RunCombined_res := RunCombined_res calm_oracle;
       RunWithWriters_res := RunWithWriters_res calm_oracle;
       RunInDirExitCode_res := RunInDirExitCode_res calm_oracle;
       RunTrimmedCombined_res := RunTrimmedCombined_res calm_oracle;
       Cmd_Run_res := Cmd_Run_res calm_oracle |}.

(** ** Further observations *)




(** The [StepmanShare*] functions. *)
Definition is_share_call (c : FacadeCall) : bool :=
  match c with
  | CallStepmanShare | CallStepmanShareAudit | CallStepmanShareCreate _ _ _
  | CallStepmanShareFinish | CallStepmanShareStart _ => true
  | _ => false
  end.

Definition is_FileClose (e : Event) : bool :=
  match e with EvFileClose _ => true | _ => false end.

Definition is_BodyClose (e : Event) : bool :=
  match e with EvBodyClose _ => true | _ => false end.

Definition is_Chmod (e : Event) : bool :=
  match e with EvChmod _ _ => true | _ => false end.

(** Where [InstallFromURL] puts a tool. *)
Definition destination_of (w : World) (toolBinName : string) : string :=
  filepath_Join (ambient w) (bitriseToolsDirPath (ambient w)) toolBinName.

(** ** More sample worlds *)

Definition with_files (w : World) (m : gmap string File) : World := set_fs w m.

(** A supported system on an unsupported CPU. *)
Definition linux_arm_world : World := world_of (sample_ambient "linux" "arm64") calm_oracle.

(** Files can be created but the network is down. *)
Definition offline_world : World :=
  world_of (sample_ambient "linux" "amd64")
    {| os_Create_err := os_Create_err calm_oracle;
       file_Close_err := fun _ => Some (mkError "file already closed");
       http_Get_res := http_Get_res hostile_oracle;
       io_Copy_fault := io_Copy_fault calm_oracle;
       body_Close_err := body_Close_err calm_oracle;
       os_Chmod_err := os_Chmod_err calm_oracle;
       RunCommand_res := RunCommand_res calm_oracle;
       RunCombined_res := RunCombined_res calm_oracle;
       RunWithWriters_res := RunWithWriters_res calm_oracle;
       RunInDirExitCode_res := RunInDirExitCode_res calm_oracle;
       RunTrimmedCombined_res := RunTrimmedCombined_res calm_oracle;
       Cmd_Run_res := Cmd_Run_res calm_oracle |}.

(** An older, executable [envman] is already installed. *)
Definition reinstall_world : World :=
  with_files linux_world {[ "/root/.bitrise/tools/envman" := mkFile "old build" 493 ]}.

(** [envman clear] fails without printing anything. *)
Definition silent_failure_world : World :=
  world_of (sample_ambient "linux" "amd64")
    {| os_Create_err := os_Create_err calm_oracle;
       file_Close_err := file_Close_err calm_oracle;
       http_Get_res := http_Get_res calm_oracle;
       io_Copy_fault := io_Copy_fault calm_oracle;
       body_Close_err := body_Close_err calm_oracle;
       os_Chmod_err := os_Chmod_err calm_oracle;
       RunCommand_res := RunCommand_res calm_oracle;
       RunCombined_res := RunCombined_res calm_oracle;
       RunWithWriters_res := RunWithWriters_res calm_oracle;
       RunInDirExitCode_res := RunInDirExitCode_res calm_oracle;
       RunTrimmedCombined_res := fun _ _ => ("", Some (mkError "exit status 2"));
       Cmd_Run_res := Cmd_Run_res calm_oracle |}.

(** * Properties *)

(** ** Platform identification *)

Lemma embeds_middle (pre sub post : string) : embeds (pre +:+ sub +:+ post) sub.
Proof. exists pre, post. reflexivity. Qed.

Lemma append_empty_r (s : string) : s +:+ "" = s.
Proof.
  induction s as [|a s IH]; [reflexivity|].
  change (String a (s +:+ "") = String a s). now f_equal.
Qed.

Lemma append_assoc_r (a b c : string) : (a +:+ b) +:+ c = a +:+ b +:+ c.
Proof.
  induction a as [|x a IH]; [reflexivity|].
  change (String x ((a +:+ b) +:+ c) = String x (a +:+ b +:+ c)). now f_equal.
Qed.

Lemma embeds_refl (s : string) : embeds s s.
Proof. exists "", "". now rewrite append_empty_r. Qed.

Lemma embeds_skip (pre s sub : string) : embeds s sub -> embeds (pre +:+ s) sub.
Proof.
  intros (p & q & ->). exists (pre +:+ p), q. now rewrite append_assoc_r.
Qed.

Lemma embeds_here (s post : string) : embeds (s +:+ post) s.
Proof. exists "", post. reflexivity. Qed.

Create HintDb embeds.
#[local] Hint Resolve embeds_refl embeds_here embeds_skip : embeds.

Lemma eqb_neq_false (a b : string) : a <> b -> String.eqb a b = false.
Proof. intros H. now apply String.eqb_neq. Qed.

(** C2: [UnameGOOS] maps darwin to "Darwin" and linux to "Linux",
    [UnameGOARCH] maps amd64 to "x86_64"; every other runtime value is
    answered with the empty name and an "Unsupported platform" /
    "Unsupported architecture" error whose message carries the raw value. *)
Theorem platform_identification_closed (w : World) :
  (runtime_GOOS (ambient w) = "darwin" -> UnameGOOS w = (("Darwin", None), w)) /\
  (runtime_GOOS (ambient w) = "linux" -> UnameGOOS w = (("Linux", None), w)) /\
  (runtime_GOARCH (ambient w) = "amd64" -> UnameGOARCH w = (("x86_64", None), w)) /\
  (runtime_GOOS (ambient w) <> "darwin" -> runtime_GOOS (ambient w) <> "linux" ->
   UnameGOOS w =
     (("", Some (fmt_Errorf ("Unsupported platform (" +:+ runtime_GOOS (ambient w) +:+ ")"))), w)
   /\ embeds ("Unsupported platform (" +:+ runtime_GOOS (ambient w) +:+ ")")
             (runtime_GOOS (ambient w))) /\
  (runtime_GOARCH (ambient w) <> "amd64" ->
   UnameGOARCH w =
     (("", Some (fmt_Errorf ("Unsupported architecture (" +:+ runtime_GOARCH (ambient w)
                             +:+ ")"))), w)
   /\ embeds ("Unsupported architecture (" +:+ runtime_GOARCH (ambient w) +:+ ")")
             (runtime_GOARCH (ambient w))).
Proof.
  unfold UnameGOOS, UnameGOARCH, UnameGOOS_of, UnameGOARCH_of.
  repeat split.
  - intros ->. reflexivity.
  - intros ->. reflexivity.
  - intros ->. reflexivity.
  - rewrite (eqb_neq_false _ _ H), (eqb_neq_false _ _ H0). reflexivity.
  - apply embeds_middle.
  - rewrite (eqb_neq_false _ _ H). reflexivity.
  - apply embeds_middle.
Qed.

Lemma platform_identification_witness :
  fst (UnameGOOS linux_world) = ("Linux", None) /\
  fst (UnameGOARCH linux_world) = ("x86_64", None) /\
  fst (UnameGOOS plan9_world) = ("", Some (mkError "Unsupported platform (plan9)")) /\
  fst (UnameGOARCH plan9_world) = ("", Some (mkError "Unsupported architecture (arm64)")).
Proof.
  destruct (platform_identification_closed linux_world) as (_ & Hl & Ha & _).
  destruct (platform_identification_closed plan9_world) as (_ & _ & _ & Ho & Hr).
  split; [rewrite Hl; reflexivity|].
  split; [rewrite Ha; reflexivity|].
  split.
  - destruct Ho as [-> _]; [discriminate | discriminate | reflexivity].
  - destruct Hr as [-> _]; [discriminate | reflexivity].
Defined.

(** ** Tool installer *)

(** C5: with an empty tool name [InstallFromURL] answers with the
    "No Tool (bin) Name provided!" error and leaves the world as it found it:
    no file is created and no external call (download included) is made. *)
Theorem InstallFromURL_empty_name (downloadURL : string) (w : World) :
  InstallFromURL "" downloadURL w =
    (Some (fmt_Errorf ("No Tool (bin) Name provided! URL was: " +:+ downloadURL)), w).
Proof. reflexivity. Qed.

(** C8: once both platform names are resolved, [InstallToolFromGitHub] is
    [InstallFromURL] on the tool name and the release URL
    https://github.com/{user}/{tool}/releases/download/{version}/{tool}-{OS}-{ARCH}. *)
Theorem InstallToolFromGitHub_delegates
    (toolname githubUser toolVersion osName archName : string) (w : World) :
  fst (UnameGOOS w) = (osName, None) ->
  fst (UnameGOARCH w) = (archName, None) ->
  InstallToolFromGitHub toolname githubUser toolVersion w =
    InstallFromURL toolname
      ("https://github.com/" +:+ githubUser +:+ "/" +:+ toolname
       +:+ "/releases/download/" +:+ toolVersion +:+ "/" +:+ toolname
       +:+ "-" +:+ osName +:+ "-" +:+ archName) w.
Proof.
  unfold InstallToolFromGitHub, bind, UnameGOOS, UnameGOARCH. simpl.
  intros -> ->. reflexivity.
Qed.

Lemma InstallToolFromGitHub_delegates_witness :
  InstallToolFromGitHub "envman" "bitrise-io" "1.1.0" linux_world =
    InstallFromURL "envman"
      "https://github.com/bitrise-io/envman/releases/download/1.1.0/envman-Linux-x86_64"
      linux_world.
Proof.
  apply (InstallToolFromGitHub_delegates "envman" "bitrise-io" "1.1.0" "Linux" "x86_64"
           linux_world); reflexivity.
Defined.

Example InstallToolFromGitHub_plan9 :
  InstallToolFromGitHub "envman" "bitrise-io" "1.1.0" plan9_world =
    (Some (mkError "Failed to determine OS: Unsupported platform (plan9)"), plan9_world).
Proof. reflexivity. Qed.

(** ** Process-invocation facade *)

(** Unfold a facade call down to the oracle lookups it makes. *)
Ltac run_facade :=
  cbv [world_after StepmanSetup StepmanActivate StepmanUpdate
    StepmanRawStepLibStepInfo StepmanRawLocalStepInfo StepmanJSONStepLibStepInfo
    StepmanJSONLocalStepInfo StepmanRawStepList StepmanJSONStepList StepmanShare
    StepmanShareAudit StepmanShareCreate StepmanShareFinish StepmanShareStart
    EnvmanInit EnvmanInitAtPath EnvmanAdd EnvmanClear EnvmanRun EnvmanJSONPrint
    bind ret log_GetLevel_String cmdex_RunCommand
    cmdex_RunCommandAndReturnCombinedStdoutAndStderr cmdex_RunCommandWithWriters
    cmdex_RunCommandInDirAndReturnExitCode
    cmdex_NewCommand_RunAndReturnTrimmedCombinedOutput errorutil_IsExitStatusError
    Cmd_Run snd].

Lemma events_since_log (e : Event) (w : World) : events_since w (log_event e w) = [e].
Proof. unfold events_since, log_event; simpl. apply drop_app_length. Qed.

Lemma world_after_logs_one (c : FacadeCall) (w : World) :
  exists e, world_after c w = log_event e w.
Proof.
  destruct c; run_facade; try (eexists; reflexivity).
  all: try (destruct (RunWithWriters_res _ _ _) as [[o e] [err|]]; eexists; reflexivity).
  destruct (RunTrimmedCombined_res _ _ _) as [out [err|]]; eexists; reflexivity.
Qed.

(** C1 (as amended): every [Stepman*] / [Envman*] call starts exactly one
    child process, and the argument list it assembles is the pair
    [--loglevel <level>] followed by the rest, preceded by a single [--debug]
    in the nine Stepman calls outside the share family and by nothing in
    the share and Envman calls. *)
Theorem verbosity_flags_lead (c : FacadeCall) (w : World) :
  exists rest,
    assembled_args c w =
      [(if passes_debug c then ["--debug"] else []) ++ verbosity_pair w ++ rest].
Proof.
  unfold assembled_args, verbosity_pair.
  destruct c; run_facade; cbv [passes_debug].
  all: try (destruct (RunWithWriters_res _ _ _) as [[o e] [err|]]).
  all: try (destruct (RunTrimmedCombined_res _ _ _) as [out [err|]]).
  all: try (destruct expand, skipIfEmpty).
  all: rewrite events_since_log; eexists; reflexivity.
Qed.

(** C1, refuted as worded: the list [StepmanSetup] assembles starts with
    [--debug], not with the [--loglevel] pair. *)
Lemma StepmanSetup_starts_with_debug :
  assembled_args (CallStepmanSetup "steplib") linux_world =
    [["--debug"; "--loglevel"; "info"; "setup"; "--collection"; "steplib"]]
  /\ ~ begins_with_verbosity_pair (CallStepmanSetup "steplib") linux_world.
Proof.
  split; [reflexivity|].
  intros (args & H & k & Hk).
  change (assembled_args (CallStepmanSetup "steplib") linux_world)
    with [["--debug"; "--loglevel"; "info"; "setup"; "--collection"; "steplib"]] in H.
  injection H as <-. discriminate Hk.
Qed.

(** The share and Envman calls, on the other hand, do not start with
    [--debug]: no single non-empty prefix is common to all calls. *)
Lemma StepmanShare_starts_with_loglevel :
  assembled_args CallStepmanShare linux_world =
    [["--loglevel"; "info"; "share"; "--toolmode"]].
Proof. reflexivity. Qed.

(** C3: each split-capture call runs one child through
    [RunCommandWithWriters]; when the child succeeds the call returns
    exactly the bytes written to the stdout buffer (whatever went to stderr)
    and no error; when it fails the returned error reads
    "Error: <underlying error>, details: <stderr text>". *)
Theorem split_capture_contract (c : SplitCapture) (w : World) :
  exists args,
    let name := match c with SplitEnvmanPrint _ => "envman" | _ => "stepman" end in
    snd (run_split c w) = log_event (EvRunWithWriters name args) w /\
    match RunWithWriters_res (oracle w) name args with
    | (out, _, None) => fst (run_split c w) = (out, None)
    | (out, errText, Some err) =>
        let msg := "Error: " +:+ Error err +:+ ", details: " +:+ errText in
        fst (run_split c w) = (out, Some (fmt_Errorf msg))
        /\ embeds msg (Error err) /\ embeds msg errText
    end.
Proof.
  destruct c; cbv [run_split StepmanJSONStepLibStepInfo StepmanJSONLocalStepInfo
    StepmanJSONStepList EnvmanJSONPrint bind ret log_GetLevel_String
    cmdex_RunCommandWithWriters]; eexists.
  all: destruct (RunWithWriters_res _ _ _) as [[o e] [err|]] eqn:E; cbn zeta.
  all: rewrite ?E; simpl; repeat split.
  all: auto with embeds.
Qed.

(** A successful child whose stderr is not empty: only stdout is returned. *)
Example EnvmanJSONPrint_drops_stderr :
  RunWithWriters_res (oracle linux_world) "envman"
    ["--loglevel"; "info"; "--path"; "/tmp/envstore.yml"; "print"; "--format"; "json";
     "--expand"] = ("{}", "warn", None)
  /\ fst (EnvmanJSONPrint "/tmp/envstore.yml" linux_world) = ("{}", None).
Proof. split; reflexivity. Qed.

(** A failing child: stdout is still returned, next to the wrapped error. *)
Example StepmanJSONStepList_failure :
  fst (StepmanJSONStepList "steplib" hostile_world) =
    ("partial", Some (mkError "Error: exit status 1, details: boom")).
Proof. reflexivity. Qed.

(** C4: [EnvmanRun] starts one child, [envman ... run <cmd>], in the given
    working directory through the exit-code runner, and returns what the
    runner reports without translating it: the exit code of the supervised
    command with no error, or the invocation-level error.  A command that
    exits with code 3 therefore yields the code 3 and a nil error. *)
Theorem EnvmanRun_exit_code_passthrough
    (envstorePth workDirPth : string) (cmd : list string) (w : World) :
  let args := ["--loglevel"; logLevel (ambient w); "--path"; envstorePth; "run"] ++ cmd in
  let outcome := RunInDirExitCode_res (oracle w) workDirPth "envman" args in
  snd (EnvmanRun envstorePth workDirPth cmd w) =
    log_event (EvRunInDirExitCode workDirPth "envman" args) w
  /\ fst (EnvmanRun envstorePth workDirPth cmd w) = RunOutcome_report outcome
  /\ (outcome = Exited 3 -> fst (EnvmanRun envstorePth workDirPth cmd w) = (3, None))
  /\ (forall code, outcome = Exited code ->
        fst (EnvmanRun envstorePth workDirPth cmd w) = (code, None))
  /\ (forall code err, outcome = InvocationFailed code err ->
        fst (EnvmanRun envstorePth workDirPth cmd w) = (code, Some err)).
Proof.
  cbv [EnvmanRun bind log_GetLevel_String cmdex_RunCommandInDirAndReturnExitCode].
  simpl. repeat split.
  - intros ->. reflexivity.
  - intros code ->. reflexivity.
  - intros code err ->. reflexivity.
Qed.

Lemma EnvmanRun_exit_code_passthrough_witness :
  fst (EnvmanRun "/tmp/envstore.yml" "/src" ["bash"; "-c"; "exit 3"] linux_world) = (3, None)
  /\ fst (EnvmanRun "/tmp/envstore.yml" "/src" ["bash"; "-c"; "exit 3"] hostile_world)
     = (1, Some (mkError "executable file not found in $PATH")).
Proof.
  split.
  - apply (EnvmanRun_exit_code_passthrough "/tmp/envstore.yml" "/src"
             ["bash"; "-c"; "exit 3"] linux_world).
    reflexivity.
  - apply (EnvmanRun_exit_code_passthrough "/tmp/envstore.yml" "/src"
             ["bash"; "-c"; "exit 3"] hostile_world).
    reflexivity.
Defined.

(** C9: [EnvmanAdd] runs one [envman] command whose standard input is a
    reader over exactly the value string, whose stdout and stderr are the
    caller's, whose argument list is the same whatever the value is, and
    whose [Run] error (nil or not) is all that is returned. *)
Theorem EnvmanAdd_pipes_value
    (envstorePth key value : string) (expand skipIfEmpty : bool) (w : World) :
  exists c : Cmd,
    EnvmanAdd envstorePth key value expand skipIfEmpty w =
      (Cmd_Run_res (oracle w) c, log_event (EvCmdRun c) w)
    /\ cmd_Path c = "envman"
    /\ cmd_Stdin c = StdinReader value
    /\ cmd_Stdout c = SinkOsStdout
    /\ cmd_Stderr c = SinkOsStderr
    /\ forall value' : string,
         assembled_args (CallEnvmanAdd envstorePth key value' expand skipIfEmpty) w =
           [tail (cmd_Args c)].
Proof.
  unfold assembled_args.
  cbv [world_after EnvmanAdd bind log_GetLevel_String Cmd_Run snd].
  eexists. split; [reflexivity|].
  repeat split. intros value'. rewrite events_since_log. reflexivity.
Qed.

(** C10: the list [EnvmanAdd] assembles is the eight fixed entries, ending
    in the key followed by [--append], and then the optional flags:
    [--no-expand] is among them exactly when [expand] is false and
    [--skip-if-empty] exactly when [skipIfEmpty] is true.  The value is not
    an input of the list: any other value gives the same list. *)
Theorem EnvmanAdd_args_shape
    (envstorePth key value : string) (expand skipIfEmpty : bool) (w : World) :
  exists flags : list string,
    assembled_args (CallEnvmanAdd envstorePth key value expand skipIfEmpty) w =
      [["--loglevel"; logLevel (ambient w); "--path"; envstorePth; "add"; "--key"; key;
        "--append"] ++ flags]
    /\ flags = (if expand then [] else ["--no-expand"])
               ++ (if skipIfEmpty then ["--skip-if-empty"] else [])
    /\ existsb (String.eqb "--no-expand") flags = negb expand
    /\ existsb (String.eqb "--skip-if-empty") flags = skipIfEmpty
    /\ forall value' : string,
         assembled_args (CallEnvmanAdd envstorePth key value' expand skipIfEmpty) w =
         assembled_args (CallEnvmanAdd envstorePth key value expand skipIfEmpty) w.
Proof.
  unfold assembled_args.
  cbv [world_after EnvmanAdd bind log_GetLevel_String Cmd_Run snd].
  rewrite events_since_log.
  exists ((if expand then [] else ["--no-expand"])
          ++ (if skipIfEmpty then ["--skip-if-empty"] else [])).
  destruct expand, skipIfEmpty; repeat split.
  all: intros value'; rewrite events_since_log; reflexivity.
Qed.

Example EnvmanAdd_args_no_expand_skip :
  assembled_args (CallEnvmanAdd "/tmp/envstore.yml" "KEY" "a value" false true) linux_world =
    [["--loglevel"; "info"; "--path"; "/tmp/envstore.yml"; "add"; "--key"; "KEY";
      "--append"; "--no-expand"; "--skip-if-empty"]].
Proof. reflexivity. Qed.

Example EnvmanAdd_args_default :
  assembled_args (CallEnvmanAdd "/tmp/envstore.yml" "KEY" "a value" true false) linux_world =
    [["--loglevel"; "info"; "--path"; "/tmp/envstore.yml"; "add"; "--key"; "KEY";
      "--append"]].
Proof. reflexivity. Qed.

(** ** Artifact fetcher *)

Ltac run_DownloadFile :=
  cbv [DownloadFile defer bind ret os_Create close_outFile close_Body File_Close
       log_Warnf http_Get Body_Close io_Copy].

Lemma events_since_app (w w' : World) (evs : list Event) :
  trace w' = trace w ++ evs -> events_since w w' = evs.
Proof. unfold events_since. intros ->. apply drop_app_length. Qed.

(** A download that reports no error created the file, fetched a response
    and copied its whole body. *)
Lemma DownloadFile_ok_inv (downloadURL targetDirPath : string) (w w1 : World) :
  DownloadFile downloadURL targetDirPath w = (None, w1) ->
  exists resp,
    http_Get_res (oracle w) downloadURL = inl resp
    /\ fs w1 !! targetDirPath =
         Some (mkFile (resp_Body resp) (created_mode w targetDirPath))
    /\ oracle w1 = oracle w /\ ambient w1 = ambient w.
Proof.
  run_DownloadFile.
  destruct (os_Create_err (oracle w) targetDirPath); simpl; [discriminate|].
  destruct (http_Get_res (oracle w) downloadURL) as [resp|e]; simpl;
    [|destruct (file_Close_err (oracle w) targetDirPath); discriminate].
  destruct (io_Copy_fault (oracle w) targetDirPath downloadURL) as [[n e]|]; simpl;
    destruct (body_Close_err (oracle w) downloadURL); simpl;
    destruct (file_Close_err (oracle w) targetDirPath); simpl;
    try discriminate.
  all: intros [= <-]; simpl.
  all: exists resp; rewrite lookup_alter_eq, lookup_insert_eq; auto.
Qed.

(** C6: [DownloadFile] calls [os.Create] on the destination first.  When the
    creation succeeds the GET is the next external call, and the destination
    ends up holding only what the download wrote (nothing if the GET fails),
    whatever it held before.  When the creation fails the create error is
    returned, no GET is issued (the only further events are the deferred
    close of the nil file and its warning) and the file table is untouched. *)
Theorem DownloadFile_creates_before_get (downloadURL targetDirPath : string) (w : World) :
  let w' := snd (DownloadFile downloadURL targetDirPath w) in
  (os_Create_err (oracle w) targetDirPath = None ->
     (exists rest, events_since w w' =
                     EvCreate targetDirPath :: EvHttpGet downloadURL :: rest)
     /\ fs w' !! targetDirPath =
          Some (mkFile (downloaded_bytes downloadURL targetDirPath w)
                       (created_mode w targetDirPath)))
  /\ (forall err, os_Create_err (oracle w) targetDirPath = Some err ->
        fst (DownloadFile downloadURL targetDirPath w) =
          Some (fmt_Errorf ("failed to create (" +:+ targetDirPath +:+ "), error: "
                            +:+ Error err))
        /\ events_since w w' =
             [EvCreate targetDirPath; EvFileClose None;
              EvWarn ("Failed to close (" +:+ targetDirPath +:+ ")")]
        /\ (forall url, EvHttpGet url ∉ events_since w w')
        /\ fs w' = fs w).
Proof.
  unfold downloaded_bytes. run_DownloadFile. cbn zeta. split.
  - intros ->. simpl.
    destruct (http_Get_res (oracle w) downloadURL) as [resp|e]; simpl.
    + destruct (io_Copy_fault (oracle w) targetDirPath downloadURL) as [[n e]|]; simpl;
        destruct (body_Close_err (oracle w) downloadURL); simpl;
        destruct (file_Close_err (oracle w) targetDirPath); simpl.
      all: split;
        [eexists; apply events_since_app; simpl; rewrite <- !app_assoc; reflexivity
        |rewrite lookup_alter_eq, lookup_insert_eq; reflexivity].
    + destruct (file_Close_err (oracle w) targetDirPath); simpl.
      all: split;
        [eexists; apply events_since_app; simpl; rewrite <- !app_assoc; reflexivity
        |apply lookup_insert_eq].
  - intros err ->. simpl.
    assert (E : events_since w
                  (log_event (EvWarn ("Failed to close (" +:+ targetDirPath +:+ ")"))
                     (log_event (EvFileClose None) (log_event (EvCreate targetDirPath) w)))
                = [EvCreate targetDirPath; EvFileClose None;
                   EvWarn ("Failed to close (" +:+ targetDirPath +:+ ")")]).
    { apply events_since_app. simpl. rewrite <- !app_assoc. reflexivity. }
    rewrite E. repeat split.
    intros url Hin. rewrite !elem_of_cons in Hin.
    destruct Hin as [H|[H|[H|H]]]; try discriminate H. inversion H.
Qed.

Lemma DownloadFile_creates_before_get_witness :
  fst (DownloadFile "https://example.org/envman" "/root/.bitrise/tools/envman" hostile_world)
    = Some (mkError "failed to create (/root/.bitrise/tools/envman), error: permission denied")
  /\ events_since linux_world
       (snd (DownloadFile "https://example.org/envman" "/root/.bitrise/tools/envman"
               linux_world))
     = [EvCreate "/root/.bitrise/tools/envman"; EvHttpGet "https://example.org/envman";
        EvCopy "/root/.bitrise/tools/envman" "https://example.org/envman";
        EvBodyClose "https://example.org/envman";
        EvFileClose (Some "/root/.bitrise/tools/envman")].
Proof.
  destruct (DownloadFile_creates_before_get "https://example.org/envman"
              "/root/.bitrise/tools/envman" hostile_world) as [_ Hfail].
  destruct (Hfail (mkError "permission denied") eq_refl) as [Hres _].
  destruct (DownloadFile_creates_before_get "https://example.org/envman"
              "/root/.bitrise/tools/envman" linux_world) as [Hok _].
  destruct (Hok eq_refl) as [[rest Hrest] _].
  split; [exact Hres | reflexivity].
Defined.

Lemma nonempty_length (s : string) : s <> "" -> (String.length s <? 1)%nat = false.
Proof. destruct s; [congruence | reflexivity]. Qed.

(** C7: when the download has succeeded, [InstallFromURL] calls
    [os.Chmod] on the destination with mode 0755.  If that succeeds the
    installation reports no error and the file is left with mode 0755, that
    is rwxr-xr-x; if it fails, the error returned is
    "Failed to make file (<destination>) executable, error: <cause>". *)
Theorem InstallFromURL_makes_executable
    (toolBinName downloadURL : string) (w w1 : World) :
  let destinationPth :=
    filepath_Join (ambient w) (bitriseToolsDirPath (ambient w)) toolBinName in
  toolBinName <> "" ->
  DownloadFile downloadURL destinationPth w = (None, w1) ->
  match os_Chmod_err (oracle w) destinationPth 493 with
  | None =>
      exists (w2 : World) (f : File),
        InstallFromURL toolBinName downloadURL w = (None, w2)
        /\ events_since w1 w2 = [EvChmod destinationPth 493]
        /\ fs w2 !! destinationPth = Some f
        /\ f_mode f = 493
        /\ is_rwxr_xr_x (f_mode f) = true
  | Some err =>
      let msg := "Failed to make file (" +:+ destinationPth
                 +:+ ") executable, error: " +:+ Error err in
      InstallFromURL toolBinName downloadURL w =
        (Some (fmt_Errorf msg), log_event (EvChmod destinationPth 493) w1)
      /\ embeds msg destinationPth /\ embeds msg (Error err)
  end.
Proof.
  intros dest Hname Hdl.
  destruct (DownloadFile_ok_inv _ _ _ _ Hdl) as (resp & _ & Hfile & Horacle & _).
  unfold InstallFromURL. rewrite (nonempty_length _ Hname).
  cbv [bind configs_GetBitriseToolsDirPath path_Join].
  fold dest. rewrite Hdl.
  cbv [os_Chmod ret]. rewrite Horacle.
  destruct (os_Chmod_err (oracle w) dest 493) as [err|].
  - cbn zeta. repeat split; auto with embeds.
  - eexists _, _. split; [reflexivity|].
    split; [apply events_since_app; reflexivity|].
    split; [simpl; rewrite lookup_alter_eq, Hfile; reflexivity|].
    split; reflexivity.
Qed.

Lemma InstallFromURL_makes_executable_witness :
  (exists (w2 : World) (f : File),
     InstallFromURL "envman" "https://example.org/envman" linux_world = (None, w2)
     /\ fs w2 !! "/root/.bitrise/tools/envman" = Some f
     /\ f_mode f = 493)
  /\ fst (InstallFromURL "envman" "https://example.org/envman" nochmod_world)
     = Some (mkError "Failed to make file (/root/.bitrise/tools/envman) executable, error: operation not permitted").
Proof.
  assert (Hne : "envman" <> "") by discriminate.
  pose proof (InstallFromURL_makes_executable "envman" "https://example.org/envman"
                linux_world _ Hne eq_refl) as Hok.
  pose proof (InstallFromURL_makes_executable "envman" "https://example.org/envman"
                nochmod_world _ Hne eq_refl) as Hno.
  split.
  - destruct Hok as (w2 & f & H1 & _ & H2 & H3 & _). exists w2, f. auto.
  - destruct Hno as [-> _]. reflexivity.
Defined.

(** * Further properties *)

(** ** [InstallToolFromGitHub] before any download *)

(** X1: on an operating system other than darwin and linux,
    [InstallToolFromGitHub] returns "Failed to determine OS: Unsupported
    platform (<GOOS>)", whatever the architecture is, and makes no external
    call. *)
Theorem InstallToolFromGitHub_unsupported_os
    (toolname githubUser toolVersion : string) (w : World) :
  runtime_GOOS (ambient w) <> "darwin" ->
  runtime_GOOS (ambient w) <> "linux" ->
  InstallToolFromGitHub toolname githubUser toolVersion w =
    (Some (fmt_Errorf ("Failed to determine OS: Unsupported platform ("
                       +:+ runtime_GOOS (ambient w) +:+ ")")), w).
Proof.
  intros Hd Hl.
  cbv [InstallToolFromGitHub bind UnameGOOS UnameGOOS_of].
  rewrite (eqb_neq_false _ _ Hd), (eqb_neq_false _ _ Hl). reflexivity.
Qed.

Lemma InstallToolFromGitHub_unsupported_os_witness :
  InstallToolFromGitHub "envman" "bitrise-io" "1.1.0" plan9_world =
    (Some (mkError "Failed to determine OS: Unsupported platform (plan9)"), plan9_world).
Proof.
  apply (InstallToolFromGitHub_unsupported_os "envman" "bitrise-io" "1.1.0" plan9_world);
    discriminate.
Defined.

(** X2: on a supported operating system with an architecture other than
    amd64, [InstallToolFromGitHub] returns "Failed to determine ARCH:
    Unsupported architecture (<GOARCH>)" and makes no external call. *)
Theorem InstallToolFromGitHub_unsupported_arch
    (toolname githubUser toolVersion osName : string) (w : World) :
  fst (UnameGOOS w) = (osName, None) ->
  runtime_GOARCH (ambient w) <> "amd64" ->
  InstallToolFromGitHub toolname githubUser toolVersion w =
    (Some (fmt_Errorf ("Failed to determine ARCH: Unsupported architecture ("
                       +:+ runtime_GOARCH (ambient w) +:+ ")")), w).
Proof.
  intros Hos Ha.
  cbv [InstallToolFromGitHub bind UnameGOOS UnameGOARCH UnameGOARCH_of] in *.
  simpl in Hos. rewrite Hos, (eqb_neq_false _ _ Ha). reflexivity.
Qed.

Lemma InstallToolFromGitHub_unsupported_arch_witness :
  InstallToolFromGitHub "envman" "bitrise-io" "1.1.0" linux_arm_world =
    (Some (mkError "Failed to determine ARCH: Unsupported architecture (arm64)"),
     linux_arm_world).
Proof.
  apply (InstallToolFromGitHub_unsupported_arch "envman" "bitrise-io" "1.1.0" "Linux"
           linux_arm_world); [reflexivity | discriminate].
Defined.

(** X3: with an empty tool name on a supported platform,
    [InstallToolFromGitHub] still builds the release URL, makes no external
    call, and reports the empty-name error quoting that URL. *)
Theorem InstallToolFromGitHub_empty_name
    (githubUser toolVersion osName archName : string) (w : World) :
  fst (UnameGOOS w) = (osName, None) ->
  fst (UnameGOARCH w) = (archName, None) ->
  InstallToolFromGitHub "" githubUser toolVersion w =
    (Some (fmt_Errorf ("No Tool (bin) Name provided! URL was: "
                       +:+ "https://github.com/" +:+ githubUser +:+ "//releases/download/"
                       +:+ toolVersion +:+ "/-" +:+ osName +:+ "-" +:+ archName)), w).
Proof.
  intros Hos Ha.
  cbv [InstallToolFromGitHub bind UnameGOOS UnameGOARCH] in *.
  simpl in Hos, Ha. rewrite Hos, Ha. reflexivity.
Qed.

Lemma InstallToolFromGitHub_empty_name_witness :
  InstallToolFromGitHub "" "bitrise-io" "1.1.0" linux_world =
    (Some (mkError "No Tool (bin) Name provided! URL was: https://github.com/bitrise-io//releases/download/1.1.0/-Linux-x86_64"),
     linux_world).
Proof.
  apply (InstallToolFromGitHub_empty_name "bitrise-io" "1.1.0" "Linux" "x86_64" linux_world);
    reflexivity.
Defined.

(** ** [DownloadFile] *)

(** All the ways a download can go, by the outcomes of the external calls. *)
Ltac DownloadFile_cases w url p :=
  run_DownloadFile; cbn zeta;
  destruct (os_Create_err (oracle w) p) as [ce|]; simpl;
  [| destruct (http_Get_res (oracle w) url) as [resp|ge]; simpl;
     [ destruct (io_Copy_fault (oracle w) p url) as [[n fe]|]; simpl;
       destruct (body_Close_err (oracle w) url); simpl;
       destruct (file_Close_err (oracle w) p); simpl
     | destruct (file_Close_err (oracle w) p); simpl ] ].

Ltac events_now :=
  unfold events_since; simpl; rewrite <- ?app_assoc; rewrite drop_app_length; simpl.

(** X4: the error [DownloadFile] returns is decided by the creation, the GET
    and the copy, in that order; a failure to close the file or the response
    body never changes it. *)
Theorem DownloadFile_result (downloadURL targetDirPath : string) (w : World) :
  fst (DownloadFile downloadURL targetDirPath w) =
    match os_Create_err (oracle w) targetDirPath with
    | Some e =>
        Some (fmt_Errorf ("failed to create (" +:+ targetDirPath +:+ "), error: "
                          +:+ Error e))
    | None =>
        match http_Get_res (oracle w) downloadURL with
        | inr e =>
            Some (fmt_Errorf ("failed to download from (" +:+ downloadURL
                              +:+ "), error: " +:+ Error e))
        | inl _ =>
            match io_Copy_fault (oracle w) targetDirPath downloadURL with
            | Some (_, e) =>
                Some (fmt_Errorf ("failed to download from (" +:+ downloadURL
                                  +:+ "), error: " +:+ Error e))
            | None => None
            end
        end
    end.
Proof. DownloadFile_cases w downloadURL targetDirPath; reflexivity. Qed.

(** X5: [DownloadFile] writes to the destination only: every other entry of
    the file table is as before, on every path. *)
Theorem DownloadFile_frame (downloadURL targetDirPath other : string) (w : World) :
  other <> targetDirPath ->
  fs (snd (DownloadFile downloadURL targetDirPath w)) !! other = fs w !! other.
Proof.
  intros Hne. DownloadFile_cases w downloadURL targetDirPath.
  all: rewrite ?lookup_alter_ne, ?lookup_insert_ne by congruence; reflexivity.
Qed.

Lemma DownloadFile_frame_witness :
  fs (snd (DownloadFile "https://example.org/stepman" "/root/.bitrise/tools/stepman"
             reinstall_world)) !! "/root/.bitrise/tools/envman"
  = Some (mkFile "old build" 493).
Proof.
  rewrite (DownloadFile_frame "https://example.org/stepman" "/root/.bitrise/tools/stepman"
             "/root/.bitrise/tools/envman" reinstall_world) by discriminate.
  reflexivity.
Defined.

(** X6: downloading over an existing file replaces its content and keeps its
    permission bits; a file that did not exist gets mode 0666 less the
    umask. *)
Theorem DownloadFile_mode (downloadURL targetDirPath : string) (w : World) :
  os_Create_err (oracle w) targetDirPath = None ->
  fs (snd (DownloadFile downloadURL targetDirPath w)) !! targetDirPath =
    Some (mkFile (downloaded_bytes downloadURL targetDirPath w)
            match fs w !! targetDirPath with
            | Some old => f_mode old
            | None => Z.land 438 (Z.lnot (umask (ambient w)))
            end).
Proof.
  intros Hc. rewrite <- Z.ldiff_land. fold (created_mode w targetDirPath).
  unfold downloaded_bytes. revert Hc.
  DownloadFile_cases w downloadURL targetDirPath; intros Hc; try discriminate Hc.
  all: rewrite ?lookup_alter_eq, lookup_insert_eq; reflexivity.
Qed.

Lemma DownloadFile_mode_witness :
  fs (snd (DownloadFile "https://example.org/envman" "/root/.bitrise/tools/envman"
             reinstall_world)) !! "/root/.bitrise/tools/envman"
    = Some (mkFile "binary" 493)
  /\ fs (snd (DownloadFile "https://example.org/envman" "/root/.bitrise/tools/envman"
                linux_world)) !! "/root/.bitrise/tools/envman"
    = Some (mkFile "binary" 420).
Proof.
  split.
  - rewrite (DownloadFile_mode "https://example.org/envman" "/root/.bitrise/tools/envman"
               reinstall_world) by reflexivity.
    reflexivity.
  - rewrite (DownloadFile_mode "https://example.org/envman" "/root/.bitrise/tools/envman"
               linux_world) by reflexivity.
    reflexivity.
Defined.

(** In an explicit event list, split at the file close. *)
Ltac split_after k L :=
  exists (firstn k L); cbn [firstn app]; eexists _, _; split; [reflexivity|].

Ltac split_at_file_close :=
  match goal with
  | |- exists pre h post, ?L = _ /\ _ =>
      first [ split_after 1%nat L | split_after 2%nat L | split_after 3%nat L
            | split_after 4%nat L | split_after 5%nat L ]
  end.

(** X7: on every path [DownloadFile] closes the output file exactly once
    (the nil file when the creation failed), as its last external call but
    for the warning that close may cause; it closes the response body
    exactly once when the GET returned a response and never otherwise, and
    that happens before the file is closed. *)
Theorem DownloadFile_releases (downloadURL targetDirPath : string) (w : World) :
  let evs := events_since w (snd (DownloadFile downloadURL targetDirPath w)) in
  length (List.filter is_FileClose evs) = 1%nat
  /\ length (List.filter is_BodyClose evs) =
       match os_Create_err (oracle w) targetDirPath, http_Get_res (oracle w) downloadURL with
       | None, inl _ => 1%nat
       | _, _ => 0%nat
       end
  /\ exists pre h post,
       evs = pre ++ EvFileClose h :: post
       /\ h = match os_Create_err (oracle w) targetDirPath with
              | None => Some targetDirPath
              | Some _ => None
              end
       /\ (post = [] \/ post = [EvWarn ("Failed to close (" +:+ targetDirPath +:+ ")")]).
Proof.
  DownloadFile_cases w downloadURL targetDirPath; events_now.
  all: split; [reflexivity|]; split; [reflexivity|].
  all: split_at_file_close; auto.
Qed.

(** ** [InstallFromURL] *)

Lemma DownloadFile_preserves (downloadURL targetDirPath : string) (w : World) :
  oracle (snd (DownloadFile downloadURL targetDirPath w)) = oracle w
  /\ ambient (snd (DownloadFile downloadURL targetDirPath w)) = ambient w.
Proof. DownloadFile_cases w downloadURL targetDirPath; auto. Qed.

Lemma DownloadFile_no_chmod (downloadURL targetDirPath : string) (w : World) :
  List.filter is_Chmod (events_since w (snd (DownloadFile downloadURL targetDirPath w))) = [].
Proof. DownloadFile_cases w downloadURL targetDirPath; events_now; reflexivity. Qed.

Lemma DownloadFile_ok_fs (downloadURL targetDirPath : string) (w w1 : World) :
  DownloadFile downloadURL targetDirPath w = (None, w1) ->
  exists resp,
    http_Get_res (oracle w) downloadURL = inl resp
    /\ os_Create_err (oracle w) targetDirPath = None
    /\ io_Copy_fault (oracle w) targetDirPath downloadURL = None
    /\ fs w1 = <[targetDirPath := mkFile (resp_Body resp) (created_mode w targetDirPath)]>
                 (fs w).
Proof.
  DownloadFile_cases w downloadURL targetDirPath; intros H; try discriminate H.
  all: injection H as <-; exists resp; repeat split; simpl.
  all: apply map_eq; intros i; destruct (decide (i = targetDirPath)) as [->|Hi].
  all: rewrite ?lookup_alter_eq, ?lookup_insert_eq,
         ?lookup_alter_ne, ?lookup_insert_ne by congruence; reflexivity.
Qed.

(** [InstallFromURL] for a non-empty name, as one case analysis. *)
Lemma InstallFromURL_nonempty (toolBinName downloadURL : string) (w : World) :
  toolBinName <> "" ->
  InstallFromURL toolBinName downloadURL w =
    let dest := destination_of w toolBinName in
    let w1 := snd (DownloadFile downloadURL dest w) in
    match fst (DownloadFile downloadURL dest w) with
    | Some err => (Some (fmt_Errorf ("Failed to download, error: " +:+ Error err)), w1)
    | None =>
        match os_Chmod_err (oracle w) dest 493 with
        | Some err =>
            (Some (fmt_Errorf ("Failed to make file (" +:+ dest
                               +:+ ") executable, error: " +:+ Error err)),
             log_event (EvChmod dest 493) w1)
        | None =>
            (None, set_fs (log_event (EvChmod dest 493) w1)
                     (alter (set_mode 493) dest (fs w1)))
        end
    end.
Proof.
  intros Hname. unfold InstallFromURL. rewrite (nonempty_length _ Hname).
  cbv [bind configs_GetBitriseToolsDirPath path_Join]. fold (destination_of w toolBinName).
  cbn zeta.
  destruct (DownloadFile_preserves downloadURL (destination_of w toolBinName) w) as [Ho _].
  destruct (DownloadFile downloadURL (destination_of w toolBinName) w) as [[e|] w1];
    simpl in *; [reflexivity|].
  cbv [os_Chmod ret]. rewrite Ho.
  destruct (os_Chmod_err (oracle w) (destination_of w toolBinName) 493); reflexivity.
Qed.

Lemma InstallFromURL_preserves (toolBinName downloadURL : string) (w : World) :
  oracle (snd (InstallFromURL toolBinName downloadURL w)) = oracle w
  /\ ambient (snd (InstallFromURL toolBinName downloadURL w)) = ambient w.
Proof.
  destruct toolBinName as [|a name]; [split; reflexivity|].
  rewrite InstallFromURL_nonempty by discriminate. cbn zeta.
  destruct (DownloadFile_preserves downloadURL (destination_of w (String a name)) w)
    as [Ho Ha].
  destruct (fst (DownloadFile downloadURL (destination_of w (String a name)) w));
    [auto|].
  destruct (os_Chmod_err (oracle w) (destination_of w (String a name)) 493); auto.
Qed.

(** X8: when the download fails, [InstallFromURL] wraps its error as
    "Failed to download, error: <cause>", stops in the world the download
    left, and never calls [os.Chmod]. *)
Theorem InstallFromURL_download_failure
    (toolBinName downloadURL : string) (err : error) (w : World) :
  toolBinName <> "" ->
  fst (DownloadFile downloadURL (destination_of w toolBinName) w) = Some err ->
  InstallFromURL toolBinName downloadURL w =
    (Some (fmt_Errorf ("Failed to download, error: " +:+ Error err)),
     snd (DownloadFile downloadURL (destination_of w toolBinName) w))
  /\ List.filter is_Chmod
       (events_since w (snd (InstallFromURL toolBinName downloadURL w))) = [].
Proof.
  intros Hname Hdl. rewrite InstallFromURL_nonempty by assumption.
  cbn zeta. rewrite Hdl. split; [reflexivity|]. apply DownloadFile_no_chmod.
Qed.

Lemma InstallFromURL_download_failure_witness :
  InstallFromURL "envman" "https://example.org/envman" offline_world =
    (Some (mkError "Failed to download, error: failed to download from (https://example.org/envman), error: no such host"),
     snd (DownloadFile "https://example.org/envman" "/root/.bitrise/tools/envman"
            offline_world)).
Proof.
  assert (Hne : "envman" <> "") by discriminate.
  destruct (InstallFromURL_download_failure "envman" "https://example.org/envman"
              (mkError "failed to download from (https://example.org/envman), error: no such host")
              offline_world Hne eq_refl) as [H _].
  exact H.
Defined.

(** X9: when the download succeeds but [os.Chmod] fails, the destination
    holds the whole payload with the mode it had after creation: the tool is
    in place but has not been made executable. *)
Theorem InstallFromURL_chmod_failure
    (toolBinName downloadURL : string) (err : error) (w w1 : World) :
  toolBinName <> "" ->
  DownloadFile downloadURL (destination_of w toolBinName) w = (None, w1) ->
  os_Chmod_err (oracle w) (destination_of w toolBinName) 493 = Some err ->
  exists resp,
    http_Get_res (oracle w) downloadURL = inl resp
    /\ fs (snd (InstallFromURL toolBinName downloadURL w)) =
         <[destination_of w toolBinName :=
             mkFile (resp_Body resp) (created_mode w (destination_of w toolBinName))]>
           (fs w).
Proof.
  intros Hname Hdl Hch. rewrite InstallFromURL_nonempty by assumption.
  cbn zeta. rewrite Hdl, Hch. simpl.
  destruct (DownloadFile_ok_fs _ _ _ _ Hdl) as (resp & Hget & _ & _ & Hfs).
  exists resp. auto.
Qed.

Lemma InstallFromURL_chmod_failure_witness :
  fs (snd (InstallFromURL "envman" "https://example.org/envman" nochmod_world))
    !! "/root/.bitrise/tools/envman" = Some (mkFile "binary" 420).
Proof.
  assert (Hne : "envman" <> "") by discriminate.
  destruct (InstallFromURL_chmod_failure "envman" "https://example.org/envman"
              (mkError "operation not permitted") nochmod_world
              (snd (DownloadFile "https://example.org/envman" "/root/.bitrise/tools/envman"
                      nochmod_world))
              Hne eq_refl eq_refl)
    as (resp & Hget & ->).
  injection Hget as <-. reflexivity.
Defined.

(** X10: [InstallFromURL] reports success exactly when the name is not
    empty and the creation, the GET, the copy and the chmod all succeed. *)
Theorem InstallFromURL_succeeds_iff (toolBinName downloadURL : string) (w : World) :
  fst (InstallFromURL toolBinName downloadURL w) = None <->
  toolBinName <> ""
  /\ os_Create_err (oracle w) (destination_of w toolBinName) = None
  /\ (exists resp, http_Get_res (oracle w) downloadURL = inl resp)
  /\ io_Copy_fault (oracle w) (destination_of w toolBinName) downloadURL = None
  /\ os_Chmod_err (oracle w) (destination_of w toolBinName) 493 = None.
Proof.
  destruct (decide (toolBinName = "")) as [->|Hname].
  { split; [discriminate | intros [H _]; congruence]. }
  rewrite InstallFromURL_nonempty by assumption. cbn zeta.
  destruct (DownloadFile downloadURL (destination_of w toolBinName) w) as [d w1] eqn:E.
  simpl. destruct d as [e|].
  - split; [discriminate|]. intros (_ & Hc & [r0 Hg] & Hf & _). exfalso.
    revert E Hc Hg Hf. DownloadFile_cases w downloadURL (destination_of w toolBinName);
      intros E; congruence.
  - destruct (DownloadFile_ok_fs _ _ _ _ E) as (resp & Hg & Hc & Hf & _).
    destruct (os_Chmod_err (oracle w) (destination_of w toolBinName) 493) eqn:Hch; simpl.
    + split; [discriminate|]. intros (_ & _ & _ & _ & H). discriminate H.
    + split; [|reflexivity]. intros _. repeat split; eauto.
Qed.

Lemma InstallFromURL_succeeds_iff_witness :
  fst (InstallFromURL "envman" "https://example.org/envman" linux_world) = None.
Proof.
  apply (InstallFromURL_succeeds_iff "envman" "https://example.org/envman" linux_world).
  split; [discriminate|].
  split; [reflexivity|].
  split; [exists (mkResponse "binary"); reflexivity|].
  split; reflexivity.
Defined.

Lemma InstallFromURL_ok_fs (toolBinName downloadURL : string) (w w2 : World) :
  InstallFromURL toolBinName downloadURL w = (None, w2) ->
  toolBinName <> ""
  /\ os_Chmod_err (oracle w) (destination_of w toolBinName) 493 = None
  /\ exists resp,
       http_Get_res (oracle w) downloadURL = inl resp
       /\ os_Create_err (oracle w) (destination_of w toolBinName) = None
       /\ io_Copy_fault (oracle w) (destination_of w toolBinName) downloadURL = None
       /\ fs w2 = <[destination_of w toolBinName := mkFile (resp_Body resp) 493]> (fs w).
Proof.
  destruct (decide (toolBinName = "")) as [->|Hname]; [discriminate|].
  rewrite InstallFromURL_nonempty by assumption. cbn zeta.
  destruct (DownloadFile downloadURL (destination_of w toolBinName) w) as [[e|] w1] eqn:E;
    simpl; [discriminate|].
  destruct (DownloadFile_ok_fs _ _ _ _ E) as (resp & Hg & Hc & Hf & Hfs).
  destruct (os_Chmod_err (oracle w) (destination_of w toolBinName) 493);
    [discriminate|].
  intros [= <-]. split; [assumption|]. split; [reflexivity|].
  exists resp. repeat split; try assumption. simpl. rewrite Hfs.
  apply map_eq; intros i.
  destruct (decide (i = destination_of w toolBinName)) as [->|Hi].
  - rewrite lookup_alter_eq, !lookup_insert_eq. reflexivity.
  - rewrite lookup_alter_ne, !lookup_insert_ne by congruence. reflexivity.
Qed.

(** X11: a successful [InstallFromURL] changes the file table in exactly one
    place: the destination now holds the response body, byte for byte, with
    mode 0755; what the destination held before is gone and every other
    file is untouched. *)
Theorem InstallFromURL_installs (toolBinName downloadURL : string) (w w2 : World) :
  InstallFromURL toolBinName downloadURL w = (None, w2) ->
  exists resp,
    http_Get_res (oracle w) downloadURL = inl resp
    /\ fs w2 = <[destination_of w toolBinName := mkFile (resp_Body resp) 493]> (fs w).
Proof.
  intros H. destruct (InstallFromURL_ok_fs _ _ _ _ H) as (_ & _ & resp & Hg & _ & _ & Hfs).
  eauto.
Qed.

Lemma InstallFromURL_installs_witness :
  fs (snd (InstallFromURL "envman" "https://example.org/envman" reinstall_world))
  = {[ "/root/.bitrise/tools/envman" := mkFile "binary" 493 ]}.
Proof.
  destruct (InstallFromURL_installs "envman" "https://example.org/envman" reinstall_world
              (snd (InstallFromURL "envman" "https://example.org/envman" reinstall_world))
              eq_refl) as (resp & Hg & ->).
  injection Hg as <-. apply insert_singleton_eq.
Defined.

(** X12: installing again is idempotent on the file table: after a
    successful [InstallFromURL], the same call succeeds again and leaves
    every file, the tool included, as the first call left it. *)
Theorem InstallFromURL_idempotent (toolBinName downloadURL : string) (w w2 : World) :
  InstallFromURL toolBinName downloadURL w = (None, w2) ->
  exists w3,
    InstallFromURL toolBinName downloadURL w2 = (None, w3) /\ fs w3 = fs w2.
Proof.
  intros H.
  destruct (InstallFromURL_ok_fs _ _ _ _ H) as (Hname & Hch & r0 & Hg & Hc & Hf & Hfs).
  pose proof (InstallFromURL_preserves toolBinName downloadURL w) as [Ho Ha].
  rewrite H in Ho, Ha. simpl in Ho, Ha.
  assert (Hd : destination_of w2 toolBinName = destination_of w toolBinName)
    by (unfold destination_of; rewrite Ha; reflexivity).
  destruct (InstallFromURL toolBinName downloadURL w2) as [r w3] eqn:E.
  assert (Hr : r = None).
  { revert E. rewrite InstallFromURL_nonempty by assumption. cbn zeta.
    rewrite Hd, Ho, Hch.
    destruct (DownloadFile downloadURL (destination_of w toolBinName) w2) as [d w1'] eqn:E1.
    simpl. intros E. destruct d as [e|]; [|congruence]. exfalso.
    rewrite <- Ho in Hc, Hg, Hf. revert E1 Hc Hg Hf.
    DownloadFile_cases w2 downloadURL (destination_of w toolBinName);
      intros E1; congruence. }
  subst r. exists w3. split; [reflexivity|].
  destruct (InstallFromURL_ok_fs _ _ _ _ E) as (_ & _ & r1 & Hg' & _ & _ & Hfs').
  rewrite Ho, Hg in Hg'. injection Hg' as <-.
  rewrite Hfs', Hd, Hfs. apply insert_insert_eq.
Qed.

Lemma InstallFromURL_idempotent_witness :
  exists w3,
    InstallFromURL "envman" "https://example.org/envman"
      (snd (InstallFromURL "envman" "https://example.org/envman" linux_world)) = (None, w3)
    /\ fs w3 = fs (snd (InstallFromURL "envman" "https://example.org/envman" linux_world)).
Proof.
  exact (InstallFromURL_idempotent "envman" "https://example.org/envman" linux_world
           _ eq_refl).
Defined.

(** ** More on the facade *)

(** X13: [EnvmanClear] returns nil when the child succeeds.  When it fails,
    the error reads "failed to clear envstore (<path>), error: <detail>",
    where the detail is the child's trimmed output if the failure is an exit
    status and that output is not empty, and the error's own text in every
    other case. *)
Theorem EnvmanClear_error_detail (envstorePth : string) (w : World) :
  let args := ["--loglevel"; logLevel (ambient w); "--path"; envstorePth; "clear"] in
  let out := fst (RunTrimmedCombined_res (oracle w) "envman" args) in
  let rerr := snd (RunTrimmedCombined_res (oracle w) "envman" args) in
  (rerr = None -> fst (EnvmanClear envstorePth w) = None)
  /\ (forall err, rerr = Some err ->
        IsExitStatusError (ambient w) err = true -> out <> "" ->
        fst (EnvmanClear envstorePth w) =
          Some (fmt_Errorf ("failed to clear envstore (" +:+ envstorePth
                            +:+ "), error: " +:+ out)))
  /\ (forall err, rerr = Some err ->
        IsExitStatusError (ambient w) err = false \/ out = "" ->
        fst (EnvmanClear envstorePth w) =
          Some (fmt_Errorf ("failed to clear envstore (" +:+ envstorePth
                            +:+ "), error: " +:+ Error err))).
Proof.
  cbv [EnvmanClear bind ret log_GetLevel_String
       cmdex_NewCommand_RunAndReturnTrimmedCombinedOutput errorutil_IsExitStatusError].
  cbn zeta.
  destruct (RunTrimmedCombined_res _ _ _) as [out rerr]. simpl.
  split; [intros ->; reflexivity|]. split.
  - intros err -> Hexit Hout. simpl. rewrite Hexit, (eqb_neq_false _ _ Hout). reflexivity.
  - intros err -> [Hexit | ->]; simpl.
    + rewrite Hexit. reflexivity.
    + rewrite andb_false_r. reflexivity.
Qed.

Lemma EnvmanClear_error_detail_witness :
  fst (EnvmanClear "/tmp/envstore.yml" linux_world) = None
  /\ fst (EnvmanClear "/tmp/envstore.yml" hostile_world)
     = Some (mkError "failed to clear envstore (/tmp/envstore.yml), error: boom")
  /\ fst (EnvmanClear "/tmp/envstore.yml" silent_failure_world)
     = Some (mkError "failed to clear envstore (/tmp/envstore.yml), error: exit status 2").
Proof.
  destruct (EnvmanClear_error_detail "/tmp/envstore.yml" linux_world) as (Hok & _ & _).
  destruct (EnvmanClear_error_detail "/tmp/envstore.yml" hostile_world) as (_ & Hout & _).
  destruct (EnvmanClear_error_detail "/tmp/envstore.yml" silent_failure_world)
    as (_ & _ & Herr).
  split; [exact (Hok eq_refl)|]. split.
  - apply (Hout (mkError "exit status 1")); [reflexivity | reflexivity | discriminate].
  - apply (Herr (mkError "exit status 2")); [reflexivity | right; reflexivity].
Defined.


(** X15: the raw and the JSON variant of a query assemble the same argument
    list up to the last entry, which is "raw" for one and "json" for the
    other. *)
Theorem raw_and_json_differ_in_format
    (collection stepID stepVersion pth : string) (w : World) :
  (exists init,
     assembled_args (CallStepmanRawStepLibStepInfo collection stepID stepVersion) w
       = [init ++ ["--format"; "raw"]]
     /\ assembled_args (CallStepmanJSONStepLibStepInfo collection stepID stepVersion) w
       = [init ++ ["--format"; "json"]])
  /\ (exists init,
        assembled_args (CallStepmanRawLocalStepInfo pth) w = [init ++ ["--format"; "raw"]]
        /\ assembled_args (CallStepmanJSONLocalStepInfo pth) w
           = [init ++ ["--format"; "json"]])
  /\ (exists init,
        assembled_args (CallStepmanRawStepList collection) w = [init ++ ["--format"; "raw"]]
        /\ assembled_args (CallStepmanJSONStepList collection) w
           = [init ++ ["--format"; "json"]]).
Proof.
  unfold assembled_args. run_facade.
  destruct (RunWithWriters_res (oracle w) "stepman" _) as [[o1 e1] [r1|]];
    destruct (RunWithWriters_res (oracle w) "stepman" _) as [[o2 e2] [r2|]];
    destruct (RunWithWriters_res (oracle w) "stepman" _) as [[o3 e3] [r3|]].
  all: rewrite !events_since_log; simpl.
  all: split; [|split].
  all: try (exists ["--debug"; "--loglevel"; logLevel (ambient w); "step-info";
                    "--collection"; collection; "--id"; stepID; "--version"; stepVersion];
            split; reflexivity).
  all: try (exists ["--debug"; "--loglevel"; logLevel (ambient w); "step-info";
                    "--step-yml"; pth]; split; reflexivity).
  all: exists ["--debug"; "--loglevel"; logLevel (ambient w); "step-list";
               "--collection"; collection]; split; reflexivity.
Qed.

(** X16: every share call assembles [--loglevel <level> share], then its own
    sub-command words and flags, and ends with [--toolmode]. *)
Theorem share_calls_end_with_toolmode (c : FacadeCall) (w : World) :
  is_share_call c = true ->
  exists mid,
    assembled_args c w = [["--loglevel"; logLevel (ambient w); "share"] ++ mid ++ ["--toolmode"]].
Proof.
  unfold assembled_args.
  destruct c; try discriminate; intros _; run_facade; rewrite events_since_log; simpl.
  - exists []. reflexivity.
  - exists ["audit"]. reflexivity.
  - exists ["create"; "--tag"; tag; "--git"; git; "--stepid"; stepID]. reflexivity.
  - exists ["finish"]. reflexivity.
  - exists ["start"; "--collection"; collection]. reflexivity.
Qed.

Lemma share_calls_end_with_toolmode_witness :
  exists mid,
    assembled_args (CallStepmanShareCreate "1.0.0" "https://example.org/step.git" "my-step")
      linux_world
    = [["--loglevel"; "info"; "share"] ++ mid ++ ["--toolmode"]].
Proof.
  exact (share_calls_end_with_toolmode
           (CallStepmanShareCreate "1.0.0" "https://example.org/step.git" "my-step")
           linux_world eq_refl).
Defined.

(** ** End to end *)



End tools.
